(** * Development watch supervisor (ci/dev/watch.ts)

    A shallow embedding of [Watcher.watch]: the supervisor state (the
    [server] slot and the listener registrations made by [on] and
    [onLine]), the effects it performs on the outside world, recorded in
    order, and its reactions to the events Node delivers to it. *)

From Stdlib Require Import String Ascii List ZArith Bool Lia.
Import ListNotations.
Open Scope string_scope.

(** ** Strings *)

(** [String.prototype.includes]: [includes s t] is [s.includes(t)]. *)
Fixpoint includes (s t : string) : bool :=
  prefix t s ||
  match s with
  | EmptyString => false
  | String _ s' => includes s' t
  end.

(** The text [console.log] writes for string arguments: the arguments
    separated by one space, followed by a newline. *)
Definition newline : string := String "010"%char EmptyString.

Definition console_text (args : list string) : string :=
  String.concat " " args ++ newline.

(** ** Child processes, emitters and listeners *)

(** The [ChildProcess] objects of [watch]: the four constants and the
    objects returned by [cp.fork], numbered in creation order. *)
Inductive handle :=
| Vscode
| VscodeWebExtensions
| Tsc
| Plugin
| Forked (n : nat).

Definition handle_eqb (a b : handle) : bool :=
  match a, b with
  | Vscode, Vscode => true
  | VscodeWebExtensions, VscodeWebExtensions => true
  | Tsc, Tsc => true
  | Plugin, Plugin => true
  | Forked n, Forked m => Nat.eqb n m
  | _, _ => false
  end.

(** The event emitters listeners are registered on: [process], a child
    process object, and the stderr and stdout streams of a child. *)
Inductive emitter :=
| Process
| Child (h : handle)
| Stderr (h : handle)
| Stdout (h : handle).

Definition emitter_eqb (a b : emitter) : bool :=
  match a, b with
  | Process, Process => true
  | Child h, Child k => handle_eqb h k
  | Stderr h, Stderr k => handle_eqb h k
  | Stdout h, Stdout k => handle_eqb h k
  | _, _ => false
  end.

Inductive signal := SIGINT | SIGTERM.

(** Event names: a signal name on [process], ["exit"] on a child process,
    ["data"] on a stream. *)
Inductive evname := Sig (s : signal) | EvExit | EvData.

Definition evname_eqb (a b : evname) : bool :=
  match a, b with
  | Sig SIGINT, Sig SIGINT | Sig SIGTERM, Sig SIGTERM => true
  | EvExit, EvExit | EvData, EvData => true
  | _, _ => false
  end.

(** The three callbacks given to [onLine]. *)
Inductive line_callback := VscodeLine | TscLine | PluginLine.

(** The closures registered as listeners. *)
Inductive listener :=
| SignalCleanup                    (* () => cleanup() *)
| ExitCleanup (message : string)   (* (code) => { Watcher.log(message); cleanup(code) } *)
| ServerExited (s : handle)        (* () => console.log(`[server] process ${s.pid} exited`) *)
| ForwardStderr                    (* (d) => process.stderr.write(d) *)
| LineReader (cb : line_callback). (* onLine(proc, cb) *)

(** The arguments an emitter passes to its listeners. *)
Inductive args :=
| NoArgs
| ExitArgs (code : option Z)
| DataArgs (d : string)
| LineArgs (line original : string).

(** ** Effects on the outside world *)

Inductive effect :=
| Spawn (h : handle) (command : string) (argv : list string) (cwd : string)
| Fork (h : handle) (modulePath : string) (argv : list string)
| Kill (h : handle)
| RemoveAllListeners (h : handle)
| StdoutWrite (text : string)
| ConsoleLog (argv : list string)
| StderrWrite (d : string)
| ProcessExit (code : Z).

(** What an effect writes to the supervisor's standard output. *)
Definition stdout_text (e : effect) : option string :=
  match e with
  | StdoutWrite text => Some text
  | ConsoleLog a => Some (console_text a)
  | _ => None
  end.

(** The listeners that a list of registrations holds for one emitter and
    event name, in registration order. *)
Definition registered (em : emitter) (name : evname)
    (regs : list (emitter * evname * listener)) : list listener :=
  map snd
    (filter (fun r => emitter_eqb (fst (fst r)) em
                      && evname_eqb (snd (fst r)) name)
            regs).

(** ** The supervisor state *)

Record state := mkState {
  server : option handle;
  listeners : list (emitter * evname * listener);
  forks : nat;
  trace : list effect;
  exited : option Z
}.

Definition init : state :=
  {| server := None; listeners := []; forks := 0; trace := []; exited := None |}.

(** What the program reads from Node and from its invocation. *)
Record world := mkWorld {
  argv : list string;                          (* process.argv *)
  PLUGIN_DIR : option string;                  (* process.env.PLUGIN_DIR *)
  dirname : string;                            (* __dirname *)
  path_resolve : string -> string -> string;   (* path.resolve *)
  path_join : string -> string -> string;      (* path.join *)
  pid : handle -> string                       (* the text of `${s.pid}` *)
}.

(** Statements run in sequence; nothing runs once [process.exit] was
    called. *)
Definition and_then (f g : state -> state) : state -> state :=
  fun st => let st' := f st in
            match exited st' with Some _ => st' | None => g st' end.

Notation "f ;; g" := (and_then f g) (at level 61, right associativity).

Definition skip : state -> state := fun st => st.

Definition emit (e : effect) : state -> state :=
  fun st => {| server := server st; listeners := listeners st;
               forks := forks st; trace := trace st ++ [e];
               exited := exited st |}.

Definition on (em : emitter) (name : evname) (l : listener) : state -> state :=
  fun st => {| server := server st;
               listeners := listeners st ++ [(em, name, l)];
               forks := forks st; trace := trace st; exited := exited st |}.

(** The registrations left when those of one emitter are dropped. *)
Definition unregister (em : emitter)
    (regs : list (emitter * evname * listener))
    : list (emitter * evname * listener) :=
  filter (fun r => negb (emitter_eqb (fst (fst r)) em)) regs.

(** [h.removeAllListeners()]: every listener of the child process object
    itself goes, for every event name. *)
Definition removeAllListeners (h : handle) : state -> state :=
  fun st => {| server := server st;
               listeners := unregister (Child h) (listeners st);
               forks := forks st;
               trace := trace st ++ [RemoveAllListeners h];
               exited := exited st |}.

Definition kill (h : handle) : state -> state := emit (Kill h).

Definition spawn (h : handle) (command : string) (a : list string)
    (cwd : string) : state -> state :=
  emit (Spawn h command a cwd).

(** [cp.fork]: a new child process object. *)
Definition fork (modulePath : string) (a : list string) : state -> state :=
  fun st => {| server := server st; listeners := listeners st;
               forks := S (forks st);
               trace := trace st ++ [Fork (Forked (forks st)) modulePath a];
               exited := exited st |}.

Definition set_server (s : handle) : state -> state :=
  fun st => {| server := Some s; listeners := listeners st;
               forks := forks st; trace := trace st; exited := exited st |}.

Definition console_log (a : list string) : state -> state :=
  emit (ConsoleLog a).

Definition process_exit (code : Z) : state -> state :=
  fun st => {| server := server st; listeners := listeners st;
               forks := forks st; trace := trace st ++ [ProcessExit code];
               exited := Some code |}.

(** Modelled from the spec: [onLine] of src/node/util, the Line Reader,
    which wraps the standard output of [proc] and calls [cb] once per
    newline-delimited chunk with the trimmed line and the original text. *)
Definition onLine (proc : handle) (cb : line_callback) : state -> state :=
  on (Stdout proc) EvData (LineReader cb).

(** [code || 0] for [code?: number | null]. *)
Definition or0 (code : option Z) : Z :=
  match code with
  | Some c => if Z.eqb c 0 then 0%Z else c
  | None => 0%Z
  end.

(** A string is truthy unless it is empty; an unset variable is
    [undefined]. *)
Definition truthy (v : option string) : bool :=
  match v with
  | Some EmptyString => false
  | Some _ => true
  | None => false
  end.

Section Watcher.

Variable w : world.

Definition rootPath : string := path_resolve w (dirname w) "../..".

Definition vscodeSourcePath : string :=
  path_join w rootPath "vendor/modules/code-oss-dev".

(** [Watcher.log(message, skipNewline = false)]. *)
Definition Watcher_log (message : string) (skipNewline : bool)
    : state -> state :=
  emit (StdoutWrite message) ;;
  (if negb skipNewline then emit (StdoutWrite newline) else skip).

Definition log (message : string) : state -> state :=
  Watcher_log message false.

Definition restartServer : state -> state :=
  (fun st => match server st with
             | Some old => kill old st
             | None => st
             end) ;;
  (fun st =>
     let s := Forked (forks st) in
     (fork (path_join w rootPath "out/node/entry.js") (skipn 2 (argv w)) ;;
      console_log ["[server] spawned process " ++ pid w s] ;;
      on (Child s) EvExit (ServerExited s) ;;
      set_server s) st).

(** The constant [plugin] of [watch]. *)
Definition plugin : option handle :=
  if truthy (PLUGIN_DIR w) then Some Plugin else None.

Definition cleanup (code : option Z) : state -> state :=
  log "killing vs code watcher" ;;
  removeAllListeners Vscode ;;
  kill Vscode ;;
  log "killing vs code web extension watcher" ;;
  removeAllListeners VscodeWebExtensions ;;
  kill VscodeWebExtensions ;;
  log "killing tsc" ;;
  removeAllListeners Tsc ;;
  kill Tsc ;;
  match plugin with
  | Some p => log "killing plugin" ;; removeAllListeners p ;; kill p
  | None => skip
  end ;;
  (fun st => match server st with
             | Some s =>
                 (log "killing server" ;; removeAllListeners s ;; kill s) st
             | None => st
             end) ;;
  log "killing watch" ;;
  process_exit (or0 code).

(** The bodies of the callbacks given to [onLine]. *)
Definition on_line (cb : line_callback) (line original : string)
    : state -> state :=
  match cb with
  | VscodeLine =>
      console_log ["[vscode]"; original] ;;
      (if includes line "Finished compilation" then restartServer else skip)
  | TscLine =>
      (if negb (String.eqb line "") then console_log ["[tsc]"; original]
       else skip) ;;
      (if includes line "Watching for file changes" then restartServer
       else skip)
  | PluginLine =>
      (if negb (String.eqb line "") then console_log ["[plugin]"; original]
       else skip) ;;
      (if includes line "Watching for file changes" then restartServer
       else skip)
  end.

(** Calling a listener. A parameter the emitter does not pass is
    [undefined]. *)
Definition call (l : listener) (a : args) : state -> state :=
  match l with
  | SignalCleanup => cleanup None
  | ExitCleanup message =>
      log message ;;
      cleanup (match a with ExitArgs code => code | _ => None end)
  | ServerExited s => console_log ["[server] process " ++ pid w s ++ " exited"]
  | ForwardStderr =>
      match a with
      | DataArgs d => emit (StderrWrite d)
      | _ => skip
      end
  | LineReader cb =>
      match a with
      | LineArgs line original => on_line cb line original
      | _ => skip
      end
  end.

(** [watch()]: spawn the watchers and register every listener. *)
Definition watch : state -> state :=
  spawn Vscode "yarn" ["watch"] vscodeSourcePath ;;
  spawn VscodeWebExtensions "yarn" ["watch-web"] vscodeSourcePath ;;
  spawn Tsc "tsc" ["--watch"; "--pretty"; "--preserveWatchOutput"] rootPath ;;
  match plugin, PLUGIN_DIR w with
  | Some p, Some dir => spawn p "yarn" ["build"; "--watch"] dir
  | _, _ => skip
  end ;;
  on Process (Sig SIGINT) SignalCleanup ;;
  on Process (Sig SIGTERM) SignalCleanup ;;
  on (Child Vscode) EvExit
     (ExitCleanup "vs code watcher terminated unexpectedly") ;;
  on (Child VscodeWebExtensions) EvExit
     (ExitCleanup "vs code extension watcher terminated unexpectedly") ;;
  on (Child Tsc) EvExit (ExitCleanup "tsc terminated unexpectedly") ;;
  match plugin with
  | Some p => on (Child p) EvExit (ExitCleanup "plugin terminated unexpectedly")
  | None => skip
  end ;;
  on (Stderr VscodeWebExtensions) EvData ForwardStderr ;;
  on (Stderr Vscode) EvData ForwardStderr ;;
  on (Stderr Tsc) EvData ForwardStderr ;;
  match plugin with
  | Some p => on (Stderr p) EvData ForwardStderr
  | None => skip
  end ;;
  onLine Vscode VscodeLine ;;
  onLine Tsc TscLine ;;
  match plugin with
  | Some p => onLine p PluginLine
  | None => skip
  end.

(** ** Events delivered by Node

    A signal, the exit of a child with its code ([null] is [None]), a
    chunk of data on the standard error of a child, and a line of the
    standard output of a child as the Line Reader passes it on: the
    trimmed line and the original text. *)

Inductive event :=
| Signal (s : signal)
| ChildExit (h : handle) (code : option Z)
| StderrData (h : handle) (d : string)
| StdoutLine (h : handle) (line original : string).

Definition source (ev : event) : emitter * evname * args :=
  match ev with
  | Signal s => (Process, Sig s, NoArgs)
  | ChildExit h code => (Child h, EvExit, ExitArgs code)
  | StderrData h d => (Stderr h, EvData, DataArgs d)
  | StdoutLine h line original => (Stdout h, EvData, LineArgs line original)
  end.

(** The listeners registered for an event, in registration order. *)
Definition listeners_for (em : emitter) (name : evname) (st : state)
    : list listener :=
  registered em name (listeners st).

Fixpoint call_all (ls : list listener) (a : args) : state -> state :=
  match ls with
  | [] => skip
  | l :: ls' => call l a ;; call_all ls' a
  end.

(** One turn of the event loop: the listeners registered when the event
    is emitted run in order, unless the process has exited. *)
Definition step (st : state) (ev : event) : state :=
  match exited st with
  | Some _ => st
  | None =>
      let '(em, name, a) := source ev in
      call_all (listeners_for em name st) a st
  end.

Definition run (evs : list event) (st : state) : state :=
  fold_left step evs st.

(** The state in which [watch()] returns to the event loop. *)
Definition started : state := watch init.

End Watcher.

(** ** Vocabulary of the statements *)

(** [t] occurs in [s] as a substring. *)
Definition contains (s t : string) : Prop :=
  exists pre post, s = pre ++ t ++ post.

(** The effects one teardown step of [cleanup] performs on a child. *)
Definition teardown (message : string) (h : handle) : list effect :=
  [StdoutWrite message; StdoutWrite newline; RemoveAllListeners h; Kill h].

(** The registration of the exit listener of the [n]-th forked server. *)
Definition server_registration (n : nat) : emitter * evname * listener :=
  (Child (Forked n), EvExit, ServerExited (Forked n)).

(** The registrations of the exit listeners of the first [k] servers. *)
Definition server_listeners (k : nat) : list (emitter * evname * listener) :=
  map server_registration (List.seq 0 k).

(** The registrations [watch] makes, given the constant [plugin]. *)
Definition watch_registrations (p : option handle)
    : list (emitter * evname * listener) :=
  [(Process, Sig SIGINT, SignalCleanup);
   (Process, Sig SIGTERM, SignalCleanup);
   (Child Vscode, EvExit,
    ExitCleanup "vs code watcher terminated unexpectedly");
   (Child VscodeWebExtensions, EvExit,
    ExitCleanup "vs code extension watcher terminated unexpectedly");
   (Child Tsc, EvExit, ExitCleanup "tsc terminated unexpectedly")]
  ++ match p with
     | Some h =>
         [(Child h, EvExit, ExitCleanup "plugin terminated unexpectedly")]
     | None => []
     end
  ++ [(Stderr VscodeWebExtensions, EvData, ForwardStderr);
      (Stderr Vscode, EvData, ForwardStderr);
      (Stderr Tsc, EvData, ForwardStderr)]
  ++ match p with
     | Some h => [(Stderr h, EvData, ForwardStderr)]
     | None => []
     end
  ++ [(Stdout Vscode, EvData, LineReader VscodeLine);
      (Stdout Tsc, EvData, LineReader TscLine)]
  ++ match p with
     | Some h => [(Stdout h, EvData, LineReader PluginLine)]
     | None => []
     end.

(** The supervisor is running: it has not exited, the registrations are
    those made by [watch] followed by one exit listener per server forked
    so far, and the slot holds the last server forked. *)
Record running (w : world) (st : state) : Prop := {
  running_exited : exited st = None;
  running_listeners :
    listeners st = (listeners (started w) ++ server_listeners (forks st))%list;
  running_server :
    server st = match forks st with 0 => None | S k => Some (Forked k) end
}.

(** The listeners an event finds registered while the supervisor is
    running, given the constant [plugin] and the number of servers forked
    so far. *)
Definition handlers (p : option handle) (k : nat) (ev : event)
    : list listener :=
  match ev with
  | Signal _ => [SignalCleanup]
  | ChildExit Vscode _ =>
      [ExitCleanup "vs code watcher terminated unexpectedly"]
  | ChildExit VscodeWebExtensions _ =>
      [ExitCleanup "vs code extension watcher terminated unexpectedly"]
  | ChildExit Tsc _ => [ExitCleanup "tsc terminated unexpectedly"]
  | ChildExit Plugin _ =>
      match p with
      | Some _ => [ExitCleanup "plugin terminated unexpectedly"]
      | None => []
      end
  | ChildExit (Forked n) _ =>
      if Nat.ltb n k then [ServerExited (Forked n)] else []
  | StderrData (Forked _) _ => []
  | StderrData Plugin _ =>
      match p with Some _ => [ForwardStderr] | None => [] end
  | StderrData _ _ => [ForwardStderr]
  | StdoutLine Vscode _ _ => [LineReader VscodeLine]
  | StdoutLine Tsc _ _ => [LineReader TscLine]
  | StdoutLine Plugin _ _ =>
      match p with Some _ => [LineReader PluginLine] | None => [] end
  | StdoutLine _ _ _ => []
  end.

(** The effects of one call of [restartServer] from [st]. *)
Definition restart_effects (w : world) (st : state) : list effect :=
  match server st with Some old => [Kill old] | None => [] end
  ++ [Fork (Forked (forks st))
           (path_join w (rootPath w) "out/node/entry.js") (skipn 2 (argv w));
      ConsoleLog
        [("[server] spawned process " ++ pid w (Forked (forks st)))%string]].

(** The effects of one call of [cleanup] from [st]. *)
Definition cleanup_effects (w : world) (code : option Z) (st : state)
    : list effect :=
  teardown "killing vs code watcher" Vscode
  ++ teardown "killing vs code web extension watcher" VscodeWebExtensions
  ++ teardown "killing tsc" Tsc
  ++ match plugin w with
     | Some p => teardown "killing plugin" p
     | None => []
     end
  ++ match server st with
     | Some s => teardown "killing server" s
     | None => []
     end
  ++ [StdoutWrite "killing watch"; StdoutWrite newline;
      ProcessExit (or0 code)].

(** The tag, the trigger phrase and the blank-line rule of each callback
    given to [onLine]. *)
Definition tag (cb : line_callback) : string :=
  match cb with
  | VscodeLine => "[vscode]"
  | TscLine => "[tsc]"
  | PluginLine => "[plugin]"
  end.

Definition phrase (cb : line_callback) : string :=
  match cb with
  | VscodeLine => "Finished compilation"
  | TscLine => "Watching for file changes"
  | PluginLine => "Watching for file changes"
  end.

Definition suppressed (cb : line_callback) (line : string) : bool :=
  match cb with
  | VscodeLine => false
  | TscLine => String.eqb line ""
  | PluginLine => String.eqb line ""
  end.

(** The callback [watch] gives to [onLine] for the standard output of a
    child, if it gives one. *)
Definition line_callback_of (p : option handle) (h : handle)
    : option line_callback :=
  match h, p with
  | Vscode, _ => Some VscodeLine
  | Tsc, _ => Some TscLine
  | Plugin, Some _ => Some PluginLine
  | _, _ => None
  end.

(** The effects of one call of a line callback from [st]. *)
Definition line_effects (w : world) (cb : line_callback)
    (line original : string) (st : state) : list effect :=
  (if suppressed cb line then [] else [ConsoleLog [tag cb; original]])
  ++ (if includes line (phrase cb) then restart_effects w st else []).

(** The state the supervisor is in after [watch] has returned and the
    events [evs] have been delivered. *)
Definition after (w : world) (evs : list event) : state :=
  run w evs (started w).

(** An effect that involves no plugin: it neither spawns, kills nor
    detaches the plugin watcher, and writes to standard output neither a
    line tagged [[plugin]] nor the message of the plugin teardown. *)
Definition plugin_free (e : effect) : bool :=
  match e with
  | Spawn h _ _ _ => negb (handle_eqb h Plugin)
  | Fork h _ _ => negb (handle_eqb h Plugin)
  | Kill h => negb (handle_eqb h Plugin)
  | RemoveAllListeners h => negb (handle_eqb h Plugin)
  | StdoutWrite text =>
      negb (prefix "[plugin]" text) && negb (String.eqb text "killing plugin")
  | ConsoleLog a => negb (prefix "[plugin]" (console_text a))
  | StderrWrite _ => true
  | ProcessExit _ => true
  end.

(** The number of [cp.fork] calls made between two states. *)
Definition restarts (st st' : state) : nat := forks st' - forks st.

(** A sample invocation: [node watch.js --port 8080] with no plugin
    directory, and the same with one. *)
Definition sample_pid (h : handle) : string :=
  match h with
  | Forked 0 => "4000"
  | Forked 1 => "4001"
  | _ => "4002"
  end.

Definition world0 : world :=
  {| argv := ["node"; "watch.js"; "--port"; "8080"];
     PLUGIN_DIR := None;
     dirname := "/repo/ci/dev";
     path_resolve := fun _ _ => "/repo";
     path_join := fun a b => a ++ "/" ++ b;
     pid := sample_pid |}.

Definition world1 : world :=
  {| argv := ["node"; "watch.js"; "--port"; "8080"];
     PLUGIN_DIR := Some "/plugin";
     dirname := "/repo/ci/dev";
     path_resolve := fun _ _ => "/repo";
     path_join := fun a b => a ++ "/" ++ b;
     pid := sample_pid |}.

(** Sample event sequences: the editor-source watcher reports a finished
    compilation once, and twice in a row. *)
Definition compiled_once : list event :=
  [StdoutLine Vscode "Finished compilation of editor core"
                     "  Finished compilation of editor core"].

Definition compiled_twice : list event :=
  [StdoutLine Vscode "Finished compilation" "Finished compilation";
   StdoutLine Vscode "Finished compilation" "Finished compilation"].

(** ** Vocabulary of the statements about whole runs *)

(** The children whose exit and standard error [watch] listens to. *)
Definition watched (w : world) (h : handle) : bool :=
  match h with
  | Vscode => true
  | VscodeWebExtensions => true
  | Tsc => true
  | Plugin => match plugin w with Some _ => true | None => false end
  | Forked _ => false
  end.

(** The message the exit listener of a watcher writes. *)
Definition unexpected (h : handle) : string :=
  match h with
  | Vscode => "vs code watcher terminated unexpectedly"
  | VscodeWebExtensions => "vs code extension watcher terminated unexpectedly"
  | Tsc => "tsc terminated unexpectedly"
  | _ => "plugin terminated unexpectedly"
  end.

(** The code with which an event makes a running supervisor exit, if it
    does. *)
Definition stops (w : world) (ev : event) : option Z :=
  match ev with
  | Signal _ => Some 0%Z
  | ChildExit h code => if watched w h then Some (or0 code) else None
  | _ => None
  end.

(** The event is a line that makes a running supervisor restart the
    server. *)
Definition triggers (w : world) (ev : event) : bool :=
  match ev with
  | StdoutLine h line _ =>
      match line_callback_of (plugin w) h with
      | Some cb => includes line (phrase cb)
      | None => false
      end
  | _ => false
  end.

(** The effects of delivering an event to a running supervisor. *)
Definition step_effects (w : world) (st : state) (ev : event) : list effect :=
  match ev with
  | Signal _ => cleanup_effects w None st
  | ChildExit h code =>
      if watched w h
      then [StdoutWrite (unexpected h); StdoutWrite newline]
           ++ cleanup_effects w code st
      else match h with
           | Forked n =>
               if Nat.ltb n (forks st)
               then [ConsoleLog
                       [("[server] process " ++ pid w (Forked n)
                         ++ " exited")%string]]
               else []
           | _ => []
           end
  | StderrData h d => if watched w h then [StderrWrite d] else []
  | StdoutLine h line original =>
      match line_callback_of (plugin w) h with
      | Some cb => line_effects w cb line original st
      | None => []
      end
  end.

(** The events that reach a listener: those up to and including the
    first one that makes the supervisor exit. *)
Fixpoint live (w : world) (evs : list event) : list event :=
  match evs with
  | [] => []
  | ev :: evs' =>
      match stops w ev with
      | Some _ => [ev]
      | None => ev :: live w evs'
      end
  end.


(** What happens to the server processes, read off a trace. *)
Inductive server_op := Started (n : nat) | Detached (n : nat) | Stopped (n : nat).

Definition server_op_of (e : effect) : list server_op :=
  match e with
  | Fork (Forked n) _ _ => [Started n]
  | RemoveAllListeners (Forked n) => [Detached n]
  | Kill (Forked n) => [Stopped n]
  | _ => []
  end.

(** The life of the first [k] servers while the supervisor runs: each
    one is stopped just before its successor is started. *)
Fixpoint lifecycle (k : nat) : list server_op :=
  match k with
  | 0 => []
  | S j =>
      lifecycle j
      ++ match j with 0 => [] | S i => [Stopped i] end
      ++ [Started j]
  end.

(** What [cleanup] does to the last server. *)
Definition last_rites (k : nat) : list server_op :=
  match k with
  | 0 => []
  | S j => [Detached j; Stopped j]
  end.

(** The effects on the watchers: spawning, detaching and killing a child
    that is not a forked server. *)
Definition watcher_effect (e : effect) : bool :=
  match e with
  | Spawn _ _ _ _ => true
  | RemoveAllListeners (Forked _) => false
  | RemoveAllListeners _ => true
  | Kill (Forked _) => false
  | Kill _ => true
  | _ => false
  end.

(** The watchers [watch] spawns. *)
Definition spawns (w : world) : list effect :=
  [Spawn Vscode "yarn" ["watch"] (vscodeSourcePath w);
   Spawn VscodeWebExtensions "yarn" ["watch-web"] (vscodeSourcePath w);
   Spawn Tsc "tsc" ["--watch"; "--pretty"; "--preserveWatchOutput"]
     (rootPath w)]
  ++ match PLUGIN_DIR w with
     | Some (String c dir) =>
         [Spawn Plugin "yarn" ["build"; "--watch"] (String c dir)]
     | _ => []
     end.

(** What [cleanup] does to the watchers. *)
Definition watcher_teardown (w : world) : list effect :=
  [RemoveAllListeners Vscode; Kill Vscode;
   RemoveAllListeners VscodeWebExtensions; Kill VscodeWebExtensions;
   RemoveAllListeners Tsc; Kill Tsc]
  ++ match plugin w with
     | Some p => [RemoveAllListeners p; Kill p]
     | None => []
     end.

(** The data written to standard error, read off a trace, and the data
    an event carries on the standard error of a watched child. *)
Definition stderr_of (e : effect) : list string :=
  match e with
  | StderrWrite d => [d]
  | _ => []
  end.

Definition stderr_data (w : world) (ev : event) : list string :=
  match ev with
  | StderrData h d => if watched w h then [d] else []
  | _ => []
  end.


(** The tagged echoes, read off a trace, and the echo a line event
    gives rise to. *)
Definition echo_of (e : effect) : list (string * string) :=
  match e with
  | ConsoleLog [t; original] => [(t, original)]
  | _ => []
  end.

Definition echoed (w : world) (ev : event) : list (string * string) :=
  match ev with
  | StdoutLine h line original =>
      match line_callback_of (plugin w) h with
      | Some cb => if suppressed cb line then [] else [(tag cb, original)]
      | None => []
      end
  | _ => []
  end.

(** A sample invocation with [PLUGIN_DIR] set to the empty string. *)
Definition world2 : world :=
  {| argv := ["node"; "watch.js"];
     PLUGIN_DIR := Some "";
     dirname := "/repo/ci/dev";
     path_resolve := fun _ _ => "/repo";
     path_join := fun a b => a ++ "/" ++ b;
     pid := sample_pid |}.

(** ** The middleware [common] of [register] (routes)

    [register] installs [common] on both routers before any route. *)

(** The pieces of a pattern anchored at both ends: a literal character
    and an optional one. *)
Inductive piece := Lit (c : ascii) | Maybe (c : ascii).

(** [/^p$/.test(s)] for a pattern [p] made of such pieces. *)
Fixpoint test (p : list piece) (s : string) : bool :=
  match p with
  | [] => match s with EmptyString => true | String _ _ => false end
  | Lit c :: p' =>
      match s with
      | EmptyString => false
      | String a s' => Ascii.eqb a c && test p' s'
      end
  | Maybe c :: p' =>
      match s with
      | EmptyString => false
      | String a s' => Ascii.eqb a c && test p' s'
      end
      || test p' s
  end.

(** The pattern [/^\/healthz\/?$/]. *)
Definition healthz : list piece :=
  [Lit "/"; Lit "h"; Lit "e"; Lit "a"; Lit "l"; Lit "t"; Lit "h"; Lit "z";
   Maybe "/"]%char.

(** What [common] does with a request: [heart.beat()], the assignments
    to [req.args] and [req.heart], and [next()]. *)
Inductive request_action := HeartBeat | SetArgs | SetHeart | Next.

Definition common (url : string) : list request_action :=
  (if negb (test healthz url) then [HeartBeat] else [])
  ++ [SetArgs; SetHeart; Next].

(** The working directory [register] hands to the plugin API, from the
    positional arguments [args._] ([None] when the property is missing)
    and [path.resolve]. *)
Definition workingDir (resolve : string -> string)
    (positional : option (list string)) : option string :=
  match positional with
  | Some l =>
      if Nat.ltb 0 (length l)
      then Some (resolve (nth (length l - 1) l EmptyString))
      else None
  | None => None
  end.

(** ** Properties *)

Create HintDb running.

Section Properties.

Variable w : world.

(** *** Equality tests *)

Lemma handle_eqb_eq (a b : handle) : handle_eqb a b = true <-> a = b.
Proof.
  destruct a, b; cbn; try (split; (discriminate || reflexivity)).
  rewrite Nat.eqb_eq. split; [intros ->; reflexivity | congruence].
Qed.

Lemma emitter_eqb_eq (a b : emitter) : emitter_eqb a b = true <-> a = b.
Proof.
  destruct a, b; cbn; try (split; (discriminate || reflexivity));
    rewrite handle_eqb_eq; (split; [intros ->; reflexivity | congruence]).
Qed.

Lemma emitter_eqb_refl (a : emitter) : emitter_eqb a a = true.
Proof. apply emitter_eqb_eq. reflexivity. Qed.

(** *** Substrings *)

Lemma prefix_app (t s : string) :
  prefix t s = true <-> exists post, s = (t ++ post)%string.
Proof.
  revert s. induction t as [|a t IH]; intros s.
  - split; [intros _; exists s; reflexivity | intros _].
    destruct s; reflexivity.
  - destruct s as [|b s]; cbn;
      [split; [discriminate | intros [post H]; discriminate]|].
    destruct (ascii_dec a b) as [->|Hne].
    + rewrite IH. split; intros [post H]; exists post; congruence.
    + split; [discriminate | intros [post H]; congruence].
Qed.

Lemma includes_contains (s t : string) :
  includes s t = true <-> contains s t.
Proof.
  unfold contains. induction s as [|c s IH]; cbn [includes].
  - rewrite orb_false_r, prefix_app. split.
    + intros [post H]. exists EmptyString, post. exact H.
    + intros ([|c pre] & post & H); [exists post; exact H | discriminate].
  - rewrite orb_true_iff, prefix_app, IH. split.
    + intros [[post H] | (pre & post & H)].
      * exists EmptyString, post. exact H.
      * exists (String c pre), post. cbn. rewrite H. reflexivity.
    + intros ([|c' pre] & post & H).
      * left. exists post. exact H.
      * right. exists pre, post. cbn in H. congruence.
Qed.

Lemma includes_not_contains (s t : string) :
  includes s t = false <-> ~ contains s t.
Proof.
  rewrite <- includes_contains. destruct (includes s t); split;
    congruence.
Qed.

(** *** Registrations *)

Lemma registered_app em name r1 r2 :
  registered em name (r1 ++ r2) =
    (registered em name r1 ++ registered em name r2)%list.
Proof. unfold registered. rewrite filter_app, map_app. reflexivity. Qed.

Lemma registered_unregister em name regs :
  registered em name (unregister em regs) = [].
Proof.
  unfold registered, unregister.
  induction regs as [|[[e n] l] regs IH]; cbn; [reflexivity|].
  destruct (emitter_eqb e em) eqn:E; cbn; [exact IH|].
  rewrite E. cbn. exact IH.
Qed.

Lemma registered_unregister_nil em em' name regs :
  registered em name regs = [] ->
  registered em name (unregister em' regs) = [].
Proof.
  unfold registered, unregister.
  induction regs as [|[[e n] l] regs IH]; cbn; [reflexivity|].
  destruct (emitter_eqb e em && evname_eqb n name) eqn:E; cbn;
    [discriminate|].
  intros Hn. destruct (emitter_eqb e em'); cbn; [auto|].
  rewrite E. auto.
Qed.

(** *** Running a routine *)

(** Evaluate the statements of a routine on an explicit state. *)
Ltac norm :=
  cbv [and_then skip emit on removeAllListeners kill spawn fork set_server
       console_log process_exit onLine log Watcher_log negb
       server listeners forks trace exited].

Ltac explicit st H :=
  let ex := fresh "ex" in
  destruct st as [? ? ? ? ex]; cbn [exited] in H; subst ex.

Lemma and_then_skip (f : state -> state) (st : state) :
  (f ;; skip) st = f st.
Proof. unfold and_then, skip. destruct (exited (f st)); reflexivity. Qed.

Lemma plugin_cases : plugin w = Some Plugin \/ plugin w = None.
Proof. unfold plugin. destruct (truthy (PLUGIN_DIR w)); auto. Qed.

(** *** The registrations of a running supervisor *)

Lemma registered_server_listeners (n k : nat) :
  registered (Child (Forked n)) EvExit (server_listeners k) =
    if Nat.ltb n k then [ServerExited (Forked n)] else [].
Proof.
  unfold server_listeners.
  induction k as [|k IH].
  - reflexivity.
  - rewrite seq_S, map_app, registered_app, IH.
    destruct (Nat.ltb_spec n k), (Nat.ltb_spec n (S k)); try lia; cbn;
      destruct (Nat.eqb_spec k n); try lia; subst; reflexivity.
Qed.

Lemma registered_server_listeners_other (em : emitter) (name : evname)
    (k : nat) :
  (forall n, em <> Child (Forked n)) ->
  registered em name (server_listeners k) = [].
Proof.
  intros Hem. unfold server_listeners, registered.
  induction (List.seq 0 k) as [|n l IH]; [reflexivity|].
  cbn [map filter fst snd server_registration].
  destruct (emitter_eqb (Child (Forked n)) em) eqn:E.
  - apply emitter_eqb_eq in E. symmetry in E. destruct (Hem n E).
  - cbn [andb]. exact IH.
Qed.

Lemma started_fields :
  server (started w) = None
  /\ listeners (started w) = watch_registrations (plugin w)
  /\ forks (started w) = 0
  /\ exited (started w) = None.
Proof.
  unfold started, watch, plugin.
  destruct (PLUGIN_DIR w) as [[|c d]|]; cbn [truthy]; norm; auto.
Qed.

Lemma listeners_for_running (st : state) (ev : event) :
  running w st ->
  listeners_for (fst (fst (source ev))) (snd (fst (source ev))) st =
    handlers (plugin w) (forks st) ev.
Proof.
  intros [_ Hl _]. unfold listeners_for. rewrite Hl, registered_app.
  destruct started_fields as (_ & -> & _).
  destruct plugin_cases as [-> | ->];
    destruct ev as [[]|h code|h d|h line original];
    try destruct h; cbn [source fst snd handlers];
    first [ rewrite registered_server_listeners
          | rewrite registered_server_listeners_other
              by (intros; discriminate) ];
    rewrite ?app_nil_r; reflexivity.
Qed.

(** *** The routines *)

Lemma restartServer_spec (st : state) :
  exited st = None ->
  restartServer w st =
    {| server := Some (Forked (forks st));
       listeners := listeners st ++ [server_registration (forks st)];
       forks := S (forks st);
       trace := trace st ++ restart_effects w st;
       exited := None |}.
Proof.
  intros H. explicit st H. unfold restartServer, restart_effects.
  destruct server0 as [old|]; norm; cbn [server forks];
    rewrite <- !app_assoc; reflexivity.
Qed.

Lemma cleanup_spec (code : option Z) (st : state) :
  exited st = None ->
  trace (cleanup w code st) = (trace st ++ cleanup_effects w code st)%list
  /\ exited (cleanup w code st) = Some (or0 code)
  /\ server (cleanup w code st) = server st
  /\ forks (cleanup w code st) = forks st
  /\ forall h name,
       In h ([Vscode; VscodeWebExtensions; Tsc]
             ++ match plugin w with Some p => [p] | None => [] end
             ++ match server st with Some s => [s] | None => [] end) ->
       listeners_for (Child h) name (cleanup w code st) = [].
Proof.
  intros H. explicit st H.
  unfold cleanup, cleanup_effects, listeners_for, teardown.
  destruct (plugin w) as [p|], server0 as [s|]; norm;
    rewrite <- !app_assoc; (repeat split; try reflexivity).
  all: intros h name Hin; cbn in Hin.
  all: repeat destruct Hin as [<- | Hin]; try contradiction.
  all: repeat first [apply registered_unregister
                    | apply registered_unregister_nil].
Qed.

Lemma log_spec (message : string) (st : state) :
  exited st = None ->
  log message st =
    {| server := server st; listeners := listeners st; forks := forks st;
       trace := trace st ++ [StdoutWrite message; StdoutWrite newline];
       exited := None |}.
Proof.
  intros H. explicit st H. norm. rewrite <- app_assoc. reflexivity.
Qed.

Lemma on_line_spec (cb : line_callback) (line original : string)
    (st : state) :
  exited st = None ->
  on_line w cb line original st =
    (if includes line (phrase cb) then restartServer w else skip)
      ((if suppressed cb line then skip
        else emit (ConsoleLog [tag cb; original])) st).
Proof.
  intros H. explicit st H. unfold on_line.
  destruct cb; cbn [phrase suppressed tag];
    try destruct (String.eqb line ""); norm; reflexivity.
Qed.

(** *** One turn of the event loop *)

Lemma step_running (st : state) (ev : event) :
  running w st ->
  step w st ev =
    call_all w (handlers (plugin w) (forks st) ev) (snd (source ev)) st.
Proof.
  intros R. unfold step. rewrite (running_exited _ _ R).
  rewrite <- (listeners_for_running st ev R).
  destruct (source ev) as [[em name] a]. reflexivity.
Qed.

Lemma step_exited (st : state) (ev : event) (c : Z) :
  exited st = Some c -> step w st ev = st.
Proof. intros H. unfold step. rewrite H. reflexivity. Qed.

Lemma run_exited (evs : list event) (st : state) (c : Z) :
  exited st = Some c -> run w evs st = st.
Proof.
  intros H. induction evs as [|ev evs IH]; [reflexivity|].
  cbn. rewrite (step_exited _ _ _ H). exact IH.
Qed.

Lemma run_snoc (evs : list event) (ev : event) (st : state) :
  run w (evs ++ [ev]) st = step w (run w evs st) ev.
Proof. unfold run. rewrite fold_left_app. reflexivity. Qed.

Lemma step_signal (st : state) (s : signal) :
  running w st -> step w st (Signal s) = cleanup w None st.
Proof.
  intros R. rewrite (step_running _ _ R). cbn [handlers call_all].
  apply and_then_skip.
Qed.

Lemma step_server_exit (st : state) (n : nat) (code : option Z) :
  running w st ->
  step w st (ChildExit (Forked n) code) =
    if Nat.ltb n (forks st)
    then emit (ConsoleLog
                 [("[server] process " ++ pid w (Forked n) ++ " exited")
                    %string]) st
    else st.
Proof.
  intros R. rewrite (step_running _ _ R). cbn [handlers].
  destruct (Nat.ltb n (forks st)); [|reflexivity].
  cbn [call_all]. rewrite and_then_skip. reflexivity.
Qed.

Lemma step_line (st : state) (h : handle) (line original : string) :
  running w st ->
  step w st (StdoutLine h line original) =
    match h, plugin w with
    | Vscode, _ => on_line w VscodeLine line original st
    | Tsc, _ => on_line w TscLine line original st
    | Plugin, Some _ => on_line w PluginLine line original st
    | _, _ => st
    end.
Proof.
  intros R. rewrite (step_running _ _ R).
  destruct h, (plugin w); cbn [handlers call_all source snd];
    rewrite ?and_then_skip; reflexivity.
Qed.

Lemma step_stderr (st : state) (h : handle) (d : string) :
  running w st ->
  step w st (StderrData h d) =
    match h, plugin w with
    | Forked _, _ => st
    | Plugin, None => st
    | _, _ => emit (StderrWrite d) st
    end.
Proof.
  intros R. rewrite (step_running _ _ R).
  destruct h, (plugin w); cbn [handlers call_all source snd];
    rewrite ?and_then_skip; reflexivity.
Qed.

Lemma step_watcher_exit (st : state) (h : handle) (code : option Z) :
  running w st ->
  step w st (ChildExit h code) =
    match h, plugin w with
    | Vscode, _ =>
        (log "vs code watcher terminated unexpectedly" ;;
         cleanup w code) st
    | VscodeWebExtensions, _ =>
        (log "vs code extension watcher terminated unexpectedly" ;;
         cleanup w code) st
    | Tsc, _ => (log "tsc terminated unexpectedly" ;; cleanup w code) st
    | Plugin, Some _ =>
        (log "plugin terminated unexpectedly" ;; cleanup w code) st
    | Plugin, None => st
    | Forked n, _ => step w st (ChildExit (Forked n) code)
    end.
Proof.
  intros R. destruct h; try reflexivity; rewrite (step_running _ _ R);
    destruct (plugin w); cbn [handlers call_all source snd call];
    rewrite ?and_then_skip; reflexivity.
Qed.

(** *** The running supervisor *)

Lemma running_started : running w (started w).
Proof.
  destruct started_fields as (Hs & Hl & Hf & He).
  split; rewrite ?Hf; cbn; rewrite ?app_nil_r; auto.
Qed.

Lemma running_emit (e : effect) (st : state) :
  running w st -> running w (emit e st).
Proof. intros [He Hl Hs]. split; assumption. Qed.

Lemma running_restartServer (st : state) :
  running w st -> running w (restartServer w st).
Proof.
  intros [He Hl Hs]. rewrite (restartServer_spec _ He).
  split; cbn [exited listeners forks server]; try reflexivity.
  rewrite Hl. unfold server_listeners.
  rewrite seq_S, map_app, <- app_assoc. reflexivity.
Qed.

Lemma running_on_line (cb : line_callback) (line original : string)
    (st : state) :
  running w st -> running w (on_line w cb line original st).
Proof.
  intros R. rewrite (on_line_spec _ _ _ _ (running_exited _ _ R)).
  assert (R' : running w ((if suppressed cb line then skip
                           else emit (ConsoleLog [tag cb; original])) st))
    by (destruct (suppressed cb line); [exact R | apply running_emit, R]).
  destruct (includes line (phrase cb));
    [apply running_restartServer, R' | exact R'].
Qed.

#[local] Hint Resolve running_emit running_restartServer running_on_line
  : running.

Lemma log_cleanup_trace (message : string) (code : option Z)
    (st : state) :
  exited st = None ->
  trace ((log message ;; cleanup w code) st) =
    (trace st
     ++ [StdoutWrite message; StdoutWrite newline]
     ++ cleanup_effects w code st)%list.
Proof.
  intros H. unfold and_then. rewrite (log_spec _ _ H). cbn [exited].
  destruct (cleanup_spec code
              {| server := server st; listeners := listeners st;
                 forks := forks st;
                 trace := trace st
                          ++ [StdoutWrite message; StdoutWrite newline];
                 exited := None |} eq_refl) as (-> & _).
  cbn [trace]. rewrite <- app_assoc. reflexivity.
Qed.

Lemma exited_after_log_cleanup (message : string) (code : option Z)
    (st : state) :
  exited st = None ->
  exited ((log message ;; cleanup w code) st) = Some (or0 code).
Proof.
  intros H. unfold and_then. rewrite (log_spec _ _ H). cbn [exited].
  apply cleanup_spec. reflexivity.
Qed.

Lemma running_step (st : state) (ev : event) :
  running w st -> exited (step w st ev) = None -> running w (step w st ev).
Proof.
  intros R. pose proof (running_exited _ _ R) as He.
  destruct ev as [s|h code|h d|h line original].
  - rewrite (step_signal _ _ R).
    destruct (cleanup_spec None st He) as (_ & -> & _). discriminate.
  - destruct h as [| | | |n];
      try (rewrite (step_watcher_exit _ _ _ R);
           destruct (plugin w);
           rewrite ?(exited_after_log_cleanup _ _ _ He);
           (discriminate || (intros _; exact R))).
    rewrite (step_server_exit _ _ _ R). intros _.
    destruct (Nat.ltb n (forks st)); auto with running.
  - rewrite (step_stderr _ _ _ R). intros _.
    destruct h, (plugin w); auto with running.
  - rewrite (step_line _ _ _ _ R). intros _.
    destruct h, (plugin w); auto with running.
Qed.

Lemma exited_step_sticky (st : state) (ev : event) :
  exited (step w st ev) = None -> exited st = None.
Proof.
  destruct (exited st) as [c|] eqn:E; [|reflexivity].
  rewrite (step_exited _ _ _ E). congruence.
Qed.

(** Whatever events arrive after [watch] returns, the supervisor is
    running until it exits. *)
Lemma running_run (evs : list event) :
  exited (run w evs (started w)) = None ->
  running w (run w evs (started w)).
Proof.
  induction evs as [|ev evs IH] using rev_ind.
  - intros _. apply running_started.
  - rewrite run_snoc. intros H.
    apply running_step; [|exact H].
    apply IH. exact (exited_step_sticky _ _ H).
Qed.

(** *** The claims about the routines *)

(** C1. A restart first kills the occupant of the server slot, if there
    is one, then forks the new server, and leaves the slot referring to
    the process it has just forked. *)
Theorem restartServer_kill_before_fork (st : state) :
  exited st = None ->
  let s := Forked (forks st) in
  trace (restartServer w st) =
    (trace st
     ++ match server st with Some old => [Kill old] | None => [] end
     ++ [Fork s (path_join w (rootPath w) "out/node/entry.js")
              (skipn 2 (argv w));
         ConsoleLog [("[server] spawned process " ++ pid w s)%string]])%list
  /\ server (restartServer w st) = Some s
  /\ exited (restartServer w st) = None.
Proof.
  intros H. rewrite (restartServer_spec _ H). cbn. auto.
Qed.

(** C2. [cleanup] tears the children down in a fixed order, the
    watchers always, the plugin and the server when there is one: for
    each it writes its message, removes every listener of the child
    process object and only then asks it to terminate; ["killing watch"]
    is written last and the supervisor exits. *)
Theorem cleanup_order (code : option Z) (st : state) :
  exited st = None ->
  trace (cleanup w code st) =
    (trace st
     ++ teardown "killing vs code watcher" Vscode
     ++ teardown "killing vs code web extension watcher" VscodeWebExtensions
     ++ teardown "killing tsc" Tsc
     ++ match plugin w with
        | Some p => teardown "killing plugin" p
        | None => []
        end
     ++ match server st with
        | Some s => teardown "killing server" s
        | None => []
        end
     ++ [StdoutWrite "killing watch"; StdoutWrite newline;
         ProcessExit (or0 code)])%list
  /\ exited (cleanup w code st) = Some (or0 code)
  /\ forall h name,
       In h ([Vscode; VscodeWebExtensions; Tsc]
             ++ match plugin w with Some p => [p] | None => [] end
             ++ match server st with Some s => [s] | None => [] end) ->
       listeners_for (Child h) name (cleanup w code st) = [].
Proof.
  intros H. destruct (cleanup_spec code st H) as (Ht & He & _ & _ & Hl).
  auto.
Qed.

(** C9. Every restart forks the server with the arguments of the
    supervisor's own invocation that follow the program and script
    names, unchanged and in the same order. *)
Theorem restartServer_forwards_arguments
    (node script : string) (rest : list string) (st : state) :
  argv w = node :: script :: rest ->
  exited st = None ->
  exists before,
    trace (restartServer w st) =
      (before
       ++ [Fork (Forked (forks st))
                (path_join w (rootPath w) "out/node/entry.js") rest;
           ConsoleLog
             [("[server] spawned process "
               ++ pid w (Forked (forks st)))%string]])%list
    /\ forall h m a, In (Fork h m a) (restart_effects w st) -> a = rest.
Proof.
  intros Ha H. rewrite (restartServer_spec _ H). cbn [trace].
  unfold restart_effects. rewrite Ha. cbn [skipn].
  exists (trace st
          ++ match server st with Some old => [Kill old] | None => [] end)%list.
  split; [rewrite <- app_assoc; reflexivity|].
  intros h m a. destruct (server st); cbn.
  - intros [F|[F|[F|[]]]]; congruence.
  - intros [F|[F|[]]]; congruence.
Qed.

(** *** The claims about the event loop *)

Lemma or0_code (code : option Z) :
  or0 code = match code with Some c => c | None => 0%Z end.
Proof.
  destruct code as [c|]; [|reflexivity]. cbn.
  destruct (Z.eqb_spec c 0); congruence.
Qed.

Lemma on_line_fields (cb : line_callback) (line original : string)
    (st : state) :
  exited st = None ->
  trace (on_line w cb line original st) =
    (trace st ++ line_effects w cb line original st)%list
  /\ forks (on_line w cb line original st) =
       forks st + (if includes line (phrase cb) then 1 else 0)
  /\ exited (on_line w cb line original st) = None.
Proof.
  intros H. rewrite (on_line_spec _ _ _ _ H). unfold line_effects.
  explicit st H.
  destruct (suppressed cb line), (includes line (phrase cb));
    unfold skip, emit; cbn [server listeners forks trace exited];
    rewrite ?restartServer_spec by reflexivity;
    cbn [server listeners forks trace exited]; unfold restart_effects;
    cbn [server listeners forks trace exited];
    rewrite ?app_nil_r, <- ?app_assoc; repeat split; auto; lia.
Qed.

Lemma line_callback_step (st : state) (h : handle) (cb : line_callback)
    (line original : string) :
  running w st ->
  line_callback_of (plugin w) h = Some cb ->
  step w st (StdoutLine h line original) = on_line w cb line original st.
Proof.
  intros R Hcb. rewrite (step_line _ _ _ _ R).
  destruct h, (plugin w); cbn in Hcb; congruence.
Qed.

(** C3. The supervisor exits with code 0 when a termination signal
    starts the cleanup, and with the code of the exit event when the
    exit of a watcher starts it, 0 standing in for a missing code. *)
Theorem exit_codes (evs : list event) :
  exited (after w evs) = None ->
  (forall s, exited (step w (after w evs) (Signal s)) = Some 0%Z)
  /\ (forall h code,
        In h ([Vscode; VscodeWebExtensions; Tsc]
              ++ match plugin w with Some p => [p] | None => [] end) ->
        exited (step w (after w evs) (ChildExit h code)) =
          Some (match code with Some c => c | None => 0%Z end)).
Proof.
  intros H. pose proof (running_run evs H) as R. fold (after w evs) in R.
  split.
  - intros s. rewrite (step_signal _ _ R).
    destruct (cleanup_spec None _ H) as (_ & -> & _). reflexivity.
  - intros h code Hin. rewrite (step_watcher_exit _ _ _ R), <- or0_code.
    destruct plugin_cases as [Hp | Hp]; rewrite Hp in *; cbn in Hin;
      repeat destruct Hin as [<- | Hin]; try contradiction;
      apply exited_after_log_cleanup, H.
Qed.

(** C4. A line of the editor-source watcher restarts the server exactly
    when the trimmed line contains ["Finished compilation"], a line of
    the type-checker watcher, or of the plugin watcher when there is
    one, exactly when it contains ["Watching for file changes"]; a
    blank trimmed line restarts nothing. *)
Theorem restart_iff_trigger (evs : list event) (line original : string) :
  exited (after w evs) = None ->
  let restarted h :=
    restarts (after w evs) (step w (after w evs) (StdoutLine h line original))
  in
  (restarted Vscode = 1 <-> contains line "Finished compilation")
  /\ (restarted Vscode = 0 <-> ~ contains line "Finished compilation")
  /\ (restarted Tsc = 1 <-> contains line "Watching for file changes")
  /\ (restarted Tsc = 0 <-> ~ contains line "Watching for file changes")
  /\ (plugin w <> None ->
      (restarted Plugin = 1 <-> contains line "Watching for file changes")
      /\ (restarted Plugin = 0 <->
          ~ contains line "Watching for file changes"))
  /\ (line = "" -> forall h, restarted h = 0).
Proof.
  intros H restarted. pose proof (running_run evs H) as R.
  fold (after w evs) in R.
  assert (Hcb : forall h cb,
             line_callback_of (plugin w) h = Some cb ->
             restarted h = if includes line (phrase cb) then 1 else 0).
  { intros h cb Hcb. unfold restarted, restarts.
    rewrite (line_callback_step _ _ _ _ _ R Hcb).
    destruct (on_line_fields cb line original _ H) as (_ & -> & _). lia. }
  assert (Hiff : forall h cb,
             line_callback_of (plugin w) h = Some cb ->
             (restarted h = 1 <-> contains line (phrase cb))
             /\ (restarted h = 0 <-> ~ contains line (phrase cb))).
  { intros h cb Hc. rewrite (Hcb h cb Hc).
    rewrite <- includes_contains.
    destruct (includes line (phrase cb)); split; split; congruence. }
  destruct (Hiff Vscode VscodeLine eq_refl) as [V1 V0].
  destruct (Hiff Tsc TscLine eq_refl) as [T1 T0].
  split; [exact V1|]. split; [exact V0|].
  split; [exact T1|]. split; [exact T0|]. split.
  - intros Hp. apply (Hiff Plugin PluginLine).
    destruct (plugin w); [reflexivity | congruence].
  - intros -> h. unfold restarted, restarts. rewrite (step_line _ _ _ _ R).
    destruct h, (plugin w); try lia;
      match goal with
      | |- context [on_line w ?cb _ _ _] =>
          destruct (on_line_fields cb "" original _ H) as (_ & -> & _)
      end; cbn; lia.
Qed.

Lemma suppressed_blank (cb : line_callback) (line line' : string) :
  (line = "" <-> line' = "") -> suppressed cb line' = suppressed cb line.
Proof.
  intros Hb. destruct cb; cbn; try reflexivity;
    destruct (String.eqb_spec line ""), (String.eqb_spec line' "");
    try reflexivity; tauto.
Qed.

Lemma includes_same (line line' t : string) :
  (contains line t <-> contains line' t) ->
  includes line' t = includes line t.
Proof.
  rewrite <- !includes_contains.
  destruct (includes line t), (includes line' t); intros [A B];
    try reflexivity.
  - apply A. reflexivity.
  - symmetry. apply B. reflexivity.
Qed.

(** C5. A line of a watcher whose output is read is echoed once, as
    the tag of its source followed by the original text, unless the
    type-checker or plugin callback finds the trimmed line blank; the
    trimmed line decides nothing but that suppression and the restart. *)
Theorem echo_uses_original (evs : list event) (h : handle)
    (cb : line_callback) (line original : string) :
  exited (after w evs) = None ->
  line_callback_of (plugin w) h = Some cb ->
  trace (step w (after w evs) (StdoutLine h line original)) =
    (trace (after w evs)
     ++ (if suppressed cb line then []
         else [ConsoleLog [tag cb; original]])
     ++ (if includes line (phrase cb)
         then restart_effects w (after w evs) else []))%list
  /\ stdout_text (ConsoleLog [tag cb; original]) =
       Some (tag cb ++ " " ++ original ++ newline)%string
  /\ (forall line',
        (line = "" <-> line' = "") ->
        (contains line (phrase cb) <-> contains line' (phrase cb)) ->
        step w (after w evs) (StdoutLine h line' original) =
          step w (after w evs) (StdoutLine h line original))
  /\ (h = Tsc -> line = "" ->
      trace (step w (after w evs) (StdoutLine h line original)) =
        trace (after w evs)).
Proof.
  intros H Hcb. pose proof (running_run evs H) as R.
  fold (after w evs) in R.
  rewrite (line_callback_step _ _ _ _ _ R Hcb).
  destruct (on_line_fields cb line original _ H) as (Ht & _ & _).
  split; [exact Ht|]. split.
  { destruct cb; reflexivity. }
  split.
  - intros line' Hb Hc. rewrite (line_callback_step _ _ _ _ _ R Hcb).
    rewrite !on_line_spec by exact H.
    rewrite (suppressed_blank cb _ _ Hb), (includes_same _ _ _ Hc).
    reflexivity.
  - intros -> ->. cbn in Hcb. injection Hcb as <-.
    rewrite Ht. unfold line_effects. cbn. apply app_nil_r.
Qed.

(** C6, as amended. Restarting the server asks the replaced process to
    terminate and removes no listener: the exit listener of the replaced
    process stays registered on its handle. *)
Theorem restartServer_keeps_exit_listener (evs : list event)
    (old : handle) :
  exited (after w evs) = None ->
  server (after w evs) = Some old ->
  listeners_for (Child old) EvExit (restartServer w (after w evs)) =
    [ServerExited old]
  /\ listeners (restartServer w (after w evs)) =
       (listeners (after w evs)
        ++ [server_registration (forks (after w evs))])%list
  /\ trace (restartServer w (after w evs)) =
       (trace (after w evs)
        ++ [Kill old;
            Fork (Forked (forks (after w evs)))
                 (path_join w (rootPath w) "out/node/entry.js")
                 (skipn 2 (argv w));
            ConsoleLog
              [("[server] spawned process "
                ++ pid w (Forked (forks (after w evs))))%string]])%list.
Proof.
  intros H Hs. pose proof (running_run evs H) as R.
  fold (after w evs) in R.
  pose proof (running_restartServer _ R) as R'.
  split; [|rewrite (restartServer_spec _ H); unfold restart_effects;
           rewrite Hs; split; reflexivity].
  pose proof (listeners_for_running _ (ChildExit old None) R') as Hl.
  cbn [source fst snd] in Hl. rewrite Hl.
  rewrite (restartServer_spec _ H). cbn [forks].
  rewrite (running_server _ _ R) in Hs.
  destruct (forks (after w evs)) as [|k]; [discriminate|].
  injection Hs as <-. cbn [handlers].
  replace (Nat.ltb k (S (S k))) with true
    by (symmetry; apply Nat.ltb_lt; lia).
  reflexivity.
Qed.

(** C8. The exit of a server process changes nothing in the supervisor:
    the slot, the registrations, the number of forks and the exit status
    are as before, and the only effect, if any, is the line that logs
    the process identifier. *)
Theorem server_exit_only_logs (evs : list event) (n : nat)
    (code : option Z) :
  server (step w (after w evs) (ChildExit (Forked n) code)) =
    server (after w evs)
  /\ listeners (step w (after w evs) (ChildExit (Forked n) code)) =
       listeners (after w evs)
  /\ forks (step w (after w evs) (ChildExit (Forked n) code)) =
       forks (after w evs)
  /\ exited (step w (after w evs) (ChildExit (Forked n) code)) =
       exited (after w evs)
  /\ (trace (step w (after w evs) (ChildExit (Forked n) code)) =
        trace (after w evs)
      \/ trace (step w (after w evs) (ChildExit (Forked n) code)) =
           (trace (after w evs)
            ++ [ConsoleLog
                  [("[server] process " ++ pid w (Forked n) ++ " exited")
                     %string]])%list).
Proof.
  destruct (exited (after w evs)) as [c|] eqn:H.
  - rewrite (step_exited _ _ _ H). rewrite H. auto 6.
  - pose proof (running_run evs H) as R. fold (after w evs) in R.
    rewrite (step_server_exit _ _ _ R).
    destruct (Nat.ltb n (forks (after w evs))); cbn; rewrite ?H; auto 6.
Qed.

(** C10. A line on the standard output of the editor-web-extension
    watcher changes nothing and has no effect; data on its standard
    error is written to the supervisor's standard error, and its exit
    runs the cleanup. *)
Theorem web_extensions_stdout_unread (evs : list event)
    (line original d : string) (code : option Z) :
  step w (after w evs) (StdoutLine VscodeWebExtensions line original) =
    after w evs
  /\ (exited (after w evs) = None ->
      step w (after w evs) (StderrData VscodeWebExtensions d) =
        emit (StderrWrite d) (after w evs)
      /\ trace (step w (after w evs) (ChildExit VscodeWebExtensions code)) =
           (trace (after w evs)
            ++ [StdoutWrite
                  "vs code extension watcher terminated unexpectedly";
                StdoutWrite newline]
            ++ cleanup_effects w code (after w evs))%list
      /\ exited (step w (after w evs) (ChildExit VscodeWebExtensions code)) =
           Some (or0 code)).
Proof.
  split.
  - destruct (exited (after w evs)) as [c|] eqn:H.
    + apply (step_exited _ _ _ H).
    + pose proof (running_run evs H) as R. fold (after w evs) in R.
      rewrite (step_line _ _ _ _ R). reflexivity.
  - intros H. pose proof (running_run evs H) as R.
    fold (after w evs) in R.
    rewrite (step_stderr _ _ _ R), (step_watcher_exit _ _ _ R).
    split; [reflexivity|].
    split; [|apply exited_after_log_cleanup, H].
    apply log_cleanup_trace, H.
Qed.

(** *** Without a plugin directory *)

Lemma cleanup_effects_plugin_free (code : option Z) (st : state) :
  plugin w = None ->
  running w st ->
  forallb plugin_free (cleanup_effects w code st) = true.
Proof.
  intros Hp R. unfold cleanup_effects.
  rewrite Hp, (running_server _ _ R).
  destruct (forks st); reflexivity.
Qed.

Lemma line_effects_plugin_free (cb : line_callback)
    (line original : string) (st : state) :
  cb <> PluginLine ->
  running w st ->
  forallb plugin_free (line_effects w cb line original st) = true.
Proof.
  intros Hcb R. unfold line_effects, restart_effects.
  rewrite (running_server _ _ R).
  destruct cb; [| |congruence]; cbn [suppressed];
    destruct (includes line _), (forks st);
    try destruct (String.eqb line ""); reflexivity.
Qed.

Lemma step_plugin_free (st : state) (ev : event) :
  plugin w = None ->
  running w st ->
  forallb plugin_free (trace st) = true ->
  forallb plugin_free (trace (step w st ev)) = true.
Proof.
  intros Hp R Ht. pose proof (running_exited _ _ R) as He.
  destruct ev as [s|h code|h d|h line original].
  - rewrite (step_signal _ _ R).
    destruct (cleanup_spec None st He) as (-> & _).
    rewrite forallb_app, Ht. apply cleanup_effects_plugin_free; assumption.
  - destruct h as [| | | |n];
      try (rewrite (step_watcher_exit _ _ _ R), ?Hp;
           rewrite ?log_cleanup_trace by exact He;
           rewrite ?forallb_app, ?Ht, ?cleanup_effects_plugin_free
             by assumption;
           reflexivity).
    rewrite (step_server_exit _ _ _ R).
    destruct (Nat.ltb n (forks st)); [|exact Ht].
    cbn [emit trace]. rewrite forallb_app, Ht. reflexivity.
  - rewrite (step_stderr _ _ _ R), Hp.
    destruct h; try exact Ht; cbn [emit trace];
      rewrite forallb_app, Ht; reflexivity.
  - rewrite (step_line _ _ _ _ R), Hp.
    destruct h; try exact Ht;
      match goal with
      | |- context [on_line w ?cb _ _ _] =>
          destruct (on_line_fields cb line original _ He) as (-> & _)
      end;
      rewrite forallb_app, Ht; apply line_effects_plugin_free;
      (discriminate || assumption).
Qed.

(** C7. With [PLUGIN_DIR] unset the constant [plugin] is undefined,
    and whatever events arrive nothing the supervisor does involves a
    plugin: no plugin watcher is spawned, killed or detached, no line
    tagged [[plugin]] and no ["killing plugin"] message is written;
    [cleanup] goes from the type checker straight to the server. *)
Theorem no_plugin_without_PLUGIN_DIR (evs : list event) :
  PLUGIN_DIR w = None ->
  plugin w = None
  /\ forallb plugin_free (trace (after w evs)) = true
  /\ forall code st,
       exited st = None ->
       trace (cleanup w code st) =
         (trace st
          ++ teardown "killing vs code watcher" Vscode
          ++ teardown "killing vs code web extension watcher"
               VscodeWebExtensions
          ++ teardown "killing tsc" Tsc
          ++ match server st with
             | Some s => teardown "killing server" s
             | None => []
             end
          ++ [StdoutWrite "killing watch"; StdoutWrite newline;
              ProcessExit (or0 code)])%list.
Proof.
  intros Hd.
  assert (Hp : plugin w = None) by (unfold plugin; rewrite Hd; reflexivity).
  split; [exact Hp|]. split.
  - unfold after. induction evs as [|ev evs' IH] using rev_ind.
    + unfold run, started, watch, init. cbn [fold_left]. rewrite Hp.
      norm. reflexivity.
    + rewrite run_snoc.
      destruct (exited (run w evs' (started w))) as [c|] eqn:He.
      * rewrite (step_exited _ _ _ He). exact IH.
      * apply step_plugin_free; [exact Hp | apply running_run, He | exact IH].
  - intros code st H. destruct (cleanup_spec code st H) as (-> & _).
    unfold cleanup_effects. rewrite Hp. reflexivity.
Qed.

End Properties.

(** ** Whole runs *)

Section Runs.

Variable w : world.

(** *** One event, in full *)

Lemma log_cleanup_fields (message : string) (code : option Z) (st : state) :
  exited st = None ->
  forks ((log message ;; cleanup w code) st) = forks st
  /\ server ((log message ;; cleanup w code) st) = server st.
Proof.
  intros H. unfold and_then. rewrite (log_spec message st H). cbn [exited].
  destruct (cleanup_spec w code
              {| server := server st; listeners := listeners st;
                 forks := forks st;
                 trace := trace st
                          ++ [StdoutWrite message; StdoutWrite newline];
                 exited := None |} eq_refl) as (_ & _ & Hs & Hf & _).
  split; assumption.
Qed.

Lemma step_summary (st : state) (ev : event) :
  running w st ->
  trace (step w st ev) = (trace st ++ step_effects w st ev)%list
  /\ forks (step w st ev) = forks st + (if triggers w ev then 1 else 0)
  /\ exited (step w st ev) = stops w ev.
Proof.
  intros R. pose proof (running_exited _ _ R) as He.
  destruct ev as [s|h code|h d|h line original];
    cbn [step_effects triggers stops].
  - rewrite (step_signal w _ s R).
    destruct (cleanup_spec w None st He) as (Ht & Hx & _ & Hf & _).
    rewrite Ht, Hx, Hf. repeat split. lia.
  - destruct h as [| | | |n];
      try (rewrite (step_watcher_exit w _ _ code R); unfold watched;
           destruct (plugin w);
           rewrite ?(log_cleanup_trace w _ code _ He),
                   ?(exited_after_log_cleanup w _ code _ He);
           try destruct (log_cleanup_fields
                           "vs code watcher terminated unexpectedly"
                           code st He) as [-> _];
           try destruct (log_cleanup_fields
                           "vs code extension watcher terminated unexpectedly"
                           code st He) as [-> _];
           try destruct (log_cleanup_fields "tsc terminated unexpectedly"
                           code st He) as [-> _];
           try destruct (log_cleanup_fields "plugin terminated unexpectedly"
                           code st He) as [-> _];
           cbn [unexpected]; rewrite ?app_nil_r;
           repeat split; (assumption || lia)).
    rewrite (step_server_exit w _ n code R). cbn [watched].
    destruct (Nat.ltb n (forks st)); cbn [emit trace forks exited];
      rewrite ?app_nil_r; repeat split; (assumption || lia).
  - rewrite (step_stderr w _ h d R). unfold watched.
    destruct h, (plugin w); cbn [emit trace forks exited];
      rewrite ?app_nil_r; repeat split; (assumption || lia).
  - rewrite (step_line w _ h line original R).
    destruct h, (plugin w); cbn [line_callback_of];
      rewrite ?app_nil_r; try (repeat split; (assumption || lia));
      match goal with
      | |- context [on_line w ?cb _ _ _] =>
          destruct (on_line_fields w cb line original _ He) as (-> & -> & ->)
      end; repeat split.
Qed.

(** *** Induction over the events of a run *)

Lemma run_cons (st : state) (ev : event) (evs : list event) :
  running w st ->
  match stops w ev with
  | Some c => run w (ev :: evs) st = step w st ev
              /\ exited (step w st ev) = Some c
  | None => run w (ev :: evs) st = run w evs (step w st ev)
            /\ running w (step w st ev)
  end.
Proof.
  intros R. destruct (step_summary st ev R) as (_ & _ & Hx).
  destruct (stops w ev) as [c|] eqn:Hs.
  - split; [|exact Hx]. cbn. apply (run_exited w _ _ _ Hx).
  - split; [reflexivity|]. apply running_step; assumption.
Qed.

(** A property of states kept by every event delivered to a running
    supervisor holds after any sequence of events. *)
Lemma run_invariant (I : state -> Prop) :
  (forall st ev, running w st -> I st -> I (step w st ev)) ->
  I (started w) ->
  forall evs, I (after w evs).
Proof.
  intros Hstep H0 evs. unfold after.
  pose proof (running_started w) as R.
  revert R H0. generalize (started w) as st.
  induction evs as [|ev evs IH]; intros st R H; [exact H|].
  pose proof (run_cons st ev evs R) as Hc.
  destruct (stops w ev) as [c|].
  - destruct Hc as [-> _]. apply Hstep; assumption.
  - destruct Hc as [-> R']. apply IH; [exact R' | apply Hstep; assumption].
Qed.

(** *** What the events of a run add up to *)

Lemma started_trace : trace (started w) = spawns w.
Proof.
  unfold started, watch, plugin, spawns, init.
  destruct (PLUGIN_DIR w) as [[|c d]|]; cbn [truthy];
    cbv [and_then skip emit on spawn onLine
         server listeners forks trace exited];
    reflexivity.
Qed.

Lemma step_stop_fields (st : state) (ev : event) (c : Z) :
  running w st ->
  stops w ev = Some c ->
  server (step w st ev) = server st /\ forks (step w st ev) = forks st.
Proof.
  intros R Hs. pose proof (running_exited _ _ R) as He.
  destruct ev as [s|h code|h d|h line original]; try discriminate.
  - rewrite (step_signal w _ s R).
    destruct (cleanup_spec w None st He) as (_ & _ & H1 & H2 & _). auto.
  - cbn [stops] in Hs. unfold watched in Hs.
    rewrite (step_watcher_exit w _ _ code R).
    destruct h, (plugin w); try discriminate;
      (split; apply log_cleanup_fields; exact He).
Qed.




(** X2. The number of servers forked is the number of trigger lines
    among the events delivered before the supervisor exits, and the slot
    holds the last server forked; nothing else, not the exit of that
    server nor the cleanup, changes the slot. *)
Theorem forks_count_triggers (evs : list event) :
  forks (after w evs) = length (filter (triggers w) (live w evs))
  /\ server (after w evs) =
       match forks (after w evs) with
       | 0 => None
       | S k => Some (Forked k)
       end.
Proof.
  split.
  - unfold after. pose proof (running_started w) as R.
    assert (H0 : forks (started w) = 0) by apply started_fields.
    rewrite <- (Nat.add_0_l (length _)), <- H0. clear H0.
    revert R. generalize (started w) as st.
    induction evs as [|ev evs IH]; intros st R.
    + cbn. lia.
    + pose proof (run_cons st ev evs R) as Hc.
      destruct (step_summary st ev R) as (_ & Hf & _).
      cbn [live]. destruct (stops w ev) as [c|].
      * destruct Hc as [-> _]. rewrite Hf. cbn [filter].
        destruct (triggers w ev); reflexivity.
      * destruct Hc as [-> R']. rewrite (IH _ R'), Hf. cbn [filter].
        destruct (triggers w ev); cbn [length]; lia.
  - apply (run_invariant
             (fun st => server st =
                          match forks st with
                          | 0 => None
                          | S k => Some (Forked k)
                          end)).
    + intros st ev R H. destruct (stops w ev) as [c|] eqn:Hs.
      * destruct (step_stop_fields st ev c R Hs) as [-> ->]. exact H.
      * apply running_server with (w := w). apply running_step; [exact R|].
        destruct (step_summary st ev R) as (_ & _ & ->). exact Hs.
    + apply (running_server _ _ (running_started w)).
Qed.

(** *** The life of the child processes *)

Lemma server_ops_cleanup (code : option Z) (st : state) :
  running w st ->
  flat_map server_op_of (cleanup_effects w code st) = last_rites (forks st).
Proof.
  intros R. unfold cleanup_effects. rewrite (running_server _ _ R).
  destruct (plugin_cases w) as [-> | ->]; destruct (forks st); reflexivity.
Qed.

Lemma server_ops_restart (st : state) :
  running w st ->
  flat_map server_op_of (restart_effects w st) =
    (match forks st with 0 => [] | S i => [Stopped i] end
     ++ [Started (forks st)])%list.
Proof.
  intros R. unfold restart_effects. rewrite (running_server _ _ R).
  destruct (forks st); reflexivity.
Qed.

Lemma server_ops_step (st : state) (ev : event) :
  running w st ->
  flat_map server_op_of (step_effects w st ev) =
    match stops w ev with
    | Some _ => last_rites (forks st)
    | None =>
        if triggers w ev
        then (match forks st with 0 => [] | S i => [Stopped i] end
              ++ [Started (forks st)])%list
        else []
    end.
Proof.
  intros R.
  destruct ev as [s|h code|h d|h line original];
    cbn [step_effects stops triggers].
  - apply server_ops_cleanup, R.
  - destruct (watched w h).
    + rewrite flat_map_app. apply server_ops_cleanup, R.
    + destruct h; try reflexivity.
      destruct (Nat.ltb n (forks st)); reflexivity.
  - destruct (watched w h); reflexivity.
  - destruct (line_callback_of (plugin w) h) as [cb|]; [|reflexivity].
    unfold line_effects. rewrite flat_map_app.
    replace (flat_map server_op_of
               (if suppressed cb line then []
                else [ConsoleLog [tag cb; original]]))
      with (@nil server_op) by (destruct (suppressed cb line); reflexivity).
    destruct (includes line (phrase cb)); [|reflexivity].
    apply server_ops_restart, R.
Qed.

(** X3. In every trace the forks and kills of servers alternate: server
    [n] is asked to terminate, once, just before server [n + 1] is
    forked, and never otherwise while the supervisor runs; at exit the
    last server forked has its listeners removed and is asked to
    terminate. Replaced servers never have their listeners removed. *)
Theorem server_lifecycle (evs : list event) :
  flat_map server_op_of (trace (after w evs)) =
    (lifecycle (forks (after w evs))
     ++ match exited (after w evs) with
        | Some _ => last_rites (forks (after w evs))
        | None => []
        end)%list.
Proof.
  apply (run_invariant
           (fun st => flat_map server_op_of (trace st) =
                        (lifecycle (forks st)
                         ++ match exited st with
                            | Some _ => last_rites (forks st)
                            | None => []
                            end)%list)).
  - intros st ev R H. rewrite (running_exited _ _ R), app_nil_r in H.
    destruct (step_summary st ev R) as (-> & -> & ->).
    rewrite flat_map_app, H, (server_ops_step st ev R).
    destruct (stops w ev) as [c|] eqn:Hs.
    + replace (triggers w ev) with false
        by (destruct ev; try reflexivity; discriminate).
      rewrite Nat.add_0_r. reflexivity.
    + destruct (triggers w ev).
      * rewrite Nat.add_1_r, app_nil_r. reflexivity.
      * rewrite Nat.add_0_r, !app_nil_r. reflexivity.
  - rewrite started_trace.
    destruct (started_fields w) as (_ & _ & -> & ->).
    unfold spawns. destruct (PLUGIN_DIR w) as [[|c d]|]; reflexivity.
Qed.

Lemma watcher_effects_cleanup (code : option Z) (st : state) :
  running w st ->
  filter watcher_effect (cleanup_effects w code st) = watcher_teardown w.
Proof.
  intros R. unfold cleanup_effects, watcher_teardown.
  rewrite (running_server _ _ R).
  destruct (plugin_cases w) as [-> | ->]; destruct (forks st); reflexivity.
Qed.

Lemma watcher_effects_step (st : state) (ev : event) :
  running w st ->
  filter watcher_effect (step_effects w st ev) =
    match stops w ev with
    | Some _ => watcher_teardown w
    | None => []
    end.
Proof.
  intros R.
  destruct ev as [s|h code|h d|h line original];
    cbn [step_effects stops].
  - apply watcher_effects_cleanup, R.
  - destruct (watched w h).
    + rewrite filter_app. apply watcher_effects_cleanup, R.
    + destruct h; try reflexivity.
      destruct (Nat.ltb n (forks st)); reflexivity.
  - destruct (watched w h); reflexivity.
  - destruct (line_callback_of (plugin w) h) as [cb|]; [|reflexivity].
    unfold line_effects, restart_effects.
    rewrite (running_server _ _ R).
    destruct (suppressed cb line), (includes line (phrase cb)), (forks st);
      reflexivity.
Qed.

(** X4. The watchers are spawned once, by [watch], the plugin watcher
    only for a non-empty [PLUGIN_DIR] and in that directory; while the
    supervisor runs no watcher is detached or killed, and at exit each
    one has its listeners removed and is asked to terminate exactly
    once, in the order editor, web extensions, type checker, plugin,
    whichever event started the cleanup. *)
Theorem watcher_lifecycle (evs : list event) :
  filter watcher_effect (trace (after w evs)) =
    (spawns w
     ++ match exited (after w evs) with
        | Some _ => watcher_teardown w
        | None => []
        end)%list.
Proof.
  apply (run_invariant
           (fun st => filter watcher_effect (trace st) =
                        (spawns w
                         ++ match exited st with
                            | Some _ => watcher_teardown w
                            | None => []
                            end)%list)).
  - intros st ev R H. rewrite (running_exited _ _ R), app_nil_r in H.
    destruct (step_summary st ev R) as (-> & _ & ->).
    rewrite filter_app, H, (watcher_effects_step st ev R).
    destruct (stops w ev); reflexivity.
  - rewrite started_trace.
    destruct (started_fields w) as (_ & _ & _ & ->).
    rewrite app_nil_r. unfold spawns.
    destruct (PLUGIN_DIR w) as [[|c d]|]; reflexivity.
Qed.

(** *** What is passed on *)

Lemma live_projection {A : Type} (f : effect -> list A)
    (g : event -> list A) :
  (forall st ev, running w st -> flat_map f (step_effects w st ev) = g ev) ->
  flat_map f (spawns w) = [] ->
  forall evs, flat_map f (trace (after w evs)) = flat_map g (live w evs).
Proof.
  intros Hstep H0 evs. unfold after. pose proof (running_started w) as R.
  rewrite <- (app_nil_l (flat_map g _)), <- H0, <- started_trace. clear H0.
  revert R. generalize (started w) as st.
  induction evs as [|ev evs IH]; intros st R.
  - cbn. rewrite app_nil_r. reflexivity.
  - pose proof (run_cons st ev evs R) as Hc.
    destruct (step_summary st ev R) as (Ht & _ & _).
    cbn [live]. destruct (stops w ev) as [c|].
    + destruct Hc as [-> _]. rewrite Ht, flat_map_app, (Hstep st ev R).
      cbn. rewrite app_nil_r. reflexivity.
    + destruct Hc as [-> R']. rewrite (IH _ R'), Ht, flat_map_app,
        (Hstep st ev R), <- app_assoc. reflexivity.
Qed.

(** X5. Data on the standard error of a watcher is written to the
    supervisor's standard error unchanged, once, in the order it
    arrives, for as long as the supervisor runs; nothing else is written
    there, and the standard error of the server is not passed on. *)
Theorem stderr_passthrough (evs : list event) :
  flat_map stderr_of (trace (after w evs)) =
    flat_map (stderr_data w) (live w evs).
Proof.
  apply live_projection.
  - intros st ev _.
    destruct ev as [s|h code|h d|h line original];
      cbn [step_effects stderr_data]; unfold cleanup_effects.
    + destruct (plugin w), (server st); reflexivity.
    + destruct (watched w h).
      * destruct (plugin w), (server st); reflexivity.
      * destruct h; try reflexivity.
        destruct (Nat.ltb n (forks st)); reflexivity.
    + destruct (watched w h); reflexivity.
    + destruct (line_callback_of (plugin w) h) as [cb|]; [|reflexivity].
      unfold line_effects, restart_effects.
      destruct (suppressed cb line), (includes line (phrase cb)), (server st);
        reflexivity.
  - unfold spawns. destruct (PLUGIN_DIR w) as [[|c d]|]; reflexivity.
Qed.

(** X6. The tagged echoes on standard output are those of the lines
    delivered while the supervisor runs, one per line that is not
    suppressed, in the order the lines arrive, each with the tag of its
    watcher and its original text; the lines of the web-extension
    watcher and of the server give none. *)
Theorem echoes_in_order (evs : list event) :
  flat_map echo_of (trace (after w evs)) = flat_map (echoed w) (live w evs).
Proof.
  apply live_projection.
  - intros st ev _.
    destruct ev as [s|h code|h d|h line original];
      cbn [step_effects echoed]; unfold cleanup_effects.
    + destruct (plugin w), (server st); reflexivity.
    + destruct (watched w h).
      * destruct (plugin w), (server st); reflexivity.
      * destruct h; try reflexivity.
        destruct (Nat.ltb n (forks st)); reflexivity.
    + destruct (watched w h); reflexivity.
    + destruct (line_callback_of (plugin w) h) as [cb|]; [|reflexivity].
      unfold line_effects, restart_effects.
      destruct (suppressed cb line), (includes line (phrase cb)), (server st);
        reflexivity.
  - unfold spawns. destruct (PLUGIN_DIR w) as [[|c d]|]; reflexivity.
Qed.

(** X7. While the supervisor runs no listener is ever removed: the
    registrations are those made by [watch] followed by one exit
    listener for every server forked so far, in the order of the forks,
    so that every server, replaced or not, still has its exit listener. *)
Theorem registrations_while_running (evs : list event) :
  exited (after w evs) = None ->
  listeners (after w evs) =
    (watch_registrations (plugin w)
     ++ server_listeners (forks (after w evs)))%list
  /\ forall n, n < forks (after w evs) ->
       listeners_for (Child (Forked n)) EvExit (after w evs) =
         [ServerExited (Forked n)].
Proof.
  intros H. pose proof (running_run w evs H) as R. fold (after w evs) in R.
  split.
  - rewrite (running_listeners _ _ R).
    destruct (started_fields w) as (_ & -> & _). reflexivity.
  - intros n Hn.
    pose proof (listeners_for_running w _ (ChildExit (Forked n) None) R) as Hl.
    cbn [source fst snd handlers] in Hl. rewrite Hl.
    apply Nat.ltb_lt in Hn. rewrite Hn. reflexivity.
Qed.

(** X8. A [PLUGIN_DIR] that is set to the empty string counts as unset:
    the constant [plugin] is undefined and no trace involves a plugin. *)
Theorem empty_PLUGIN_DIR_is_unset (evs : list event) :
  truthy (PLUGIN_DIR w) = false ->
  plugin w = None
  /\ forallb plugin_free (trace (after w evs)) = true.
Proof.
  intros Ht.
  assert (Hp : plugin w = None) by (unfold plugin; rewrite Ht; reflexivity).
  split; [exact Hp|].
  apply (run_invariant (fun st => forallb plugin_free (trace st) = true)).
  - intros st ev R H. apply step_plugin_free; assumption.
  - rewrite started_trace. unfold spawns.
    destruct (PLUGIN_DIR w) as [[|c d]|]; try reflexivity; discriminate.
Qed.

End Runs.

(** ** The middleware of the routes *)

Lemma test_lit (c : ascii) (p : list piece) (s : string) :
  test (Lit c :: p) s = true -> exists s', s = String c s' /\ test p s' = true.
Proof.
  destruct s as [|a s]; cbn; [discriminate|].
  destruct (Ascii.eqb_spec a c) as [->|]; [|discriminate].
  intros H. exists s. auto.
Qed.

Lemma test_healthz (url : string) :
  test healthz url = true <-> url = "/healthz" \/ url = "/healthz/".
Proof.
  split.
  - unfold healthz. intros H.
    repeat match type of H with
           | test (Lit _ :: _) _ = true =>
               apply test_lit in H; destruct H as (? & -> & H)
           end.
    match type of H with
    | test [Maybe _] ?rest = true => destruct rest as [|a [|b s]]
    end; cbn in H.
    + left. reflexivity.
    + right. destruct (Ascii.eqb_spec a "/"); [subst; reflexivity|].
      discriminate.
    + destruct (Ascii.eqb a "/"); discriminate.
  - intros [-> | ->]; reflexivity.
Qed.

(** X9. [common] beats the heart for every request except those whose
    URL is exactly [/healthz] or [/healthz/]: a health check with a query
    string or a longer path counts as activity. In every case it attaches
    [args] and [heart] to the request and passes it on. *)
Theorem common_skips_health_checks (url : string) :
  (In HeartBeat (common url) <-> url <> "/healthz" /\ url <> "/healthz/")
  /\ exists beat, common url = (beat ++ [SetArgs; SetHeart; Next])%list
                  /\ (beat = [] \/ beat = [HeartBeat]).
Proof.
  unfold common. pose proof (test_healthz url) as Ht.
  destruct (test healthz url); cbn [negb].
  - split.
    + split.
      * intros [F|[F|[F|[]]]]; discriminate.
      * intros [A B]. destruct Ht as [Ht _].
        destruct (Ht eq_refl); contradiction.
    + exists []. auto.
  - split.
    + split.
      * intros _. split; intros E; destruct Ht as [_ Ht];
          (assert (false = true) by auto); discriminate.
      * intros _. left. reflexivity.
    + exists [HeartBeat]. auto.
Qed.

(** X10. The working directory of the plugin API is the last positional
    argument, resolved, however many there are, and is undefined when
    there is none. *)
Theorem workingDir_is_last_argument (resolve : string -> string)
    (positional : option (list string)) :
  workingDir resolve positional =
    match positional with
    | Some l =>
        match rev l with
        | x :: _ => Some (resolve x)
        | [] => None
        end
    | None => None
    end.
Proof.
  destruct positional as [l|]; [|reflexivity]. unfold workingDir.
  destruct l as [|a l] using rev_ind; [reflexivity|].
  rewrite rev_app_distr, length_app. cbn [rev app length].
  replace (Nat.ltb 0 (length l + 1)) with true
    by (symmetry; apply Nat.ltb_lt; lia).
  replace (length l + 1 - 1) with (length l) by lia.
  rewrite nth_middle. reflexivity.
Qed.

(** ** The properties on sample runs *)

Lemma restartServer_kill_before_fork_witness :
  exited (after world0 compiled_once) = None
  /\ trace (restartServer world0 (after world0 compiled_once)) =
       (trace (after world0 compiled_once)
        ++ [Kill (Forked 0);
            Fork (Forked 1) "/repo/out/node/entry.js" ["--port"; "8080"];
            ConsoleLog ["[server] spawned process 4001"]])%list
  /\ server (restartServer world0 (after world0 compiled_once)) =
       Some (Forked 1).
Proof.
  split; [reflexivity|].
  destruct (restartServer_kill_before_fork world0
              (after world0 compiled_once) eq_refl) as (Ht & Hs & _).
  split; [exact Ht | exact Hs].
Defined.

Lemma cleanup_order_witness :
  exited (after world1 compiled_once) = None
  /\ exited (cleanup world1 (Some 2%Z) (after world1 compiled_once)) =
       Some 2%Z
  /\ listeners_for (Child (Forked 0)) EvExit
       (cleanup world1 (Some 2%Z) (after world1 compiled_once)) = [].
Proof.
  split; [reflexivity|].
  destruct (cleanup_order world1 (Some 2%Z)
              (after world1 compiled_once) eq_refl) as (_ & He & Hl).
  split; [exact He|].
  apply Hl. cbn. auto 8.
Defined.

Lemma exit_codes_witness :
  exited (after world0 compiled_once) = None
  /\ exited (step world0 (after world0 compiled_once) (Signal SIGINT)) =
       Some 0%Z
  /\ exited (step world0 (after world0 compiled_once)
               (ChildExit Tsc (Some 2%Z))) = Some 2%Z.
Proof.
  split; [reflexivity|].
  destruct (exit_codes world0 compiled_once eq_refl) as (Hs & Hx).
  split; [apply Hs|].
  apply (Hx Tsc (Some 2%Z)). cbn. auto.
Defined.

Lemma restart_iff_trigger_witness :
  exited (after world0 []) = None
  /\ restarts (after world0 [])
       (step world0 (after world0 [])
          (StdoutLine Vscode "Finished compilation of editor core"
                             "  Finished compilation of editor core")) = 1.
Proof.
  split; [reflexivity|].
  apply (restart_iff_trigger world0 []
           "Finished compilation of editor core"
           "  Finished compilation of editor core" eq_refl).
  exists EmptyString, " of editor core". reflexivity.
Defined.

Lemma echo_uses_original_witness :
  exited (after world1 []) = None
  /\ line_callback_of (plugin world1) Plugin = Some PluginLine
  /\ trace (step world1 (after world1 [])
              (StdoutLine Plugin "built" "  built  ")) =
       (trace (after world1 []) ++ [ConsoleLog ["[plugin]"; "  built  "]])%list.
Proof.
  split; [reflexivity|]. split; [reflexivity|].
  destruct (echo_uses_original world1 [] Plugin PluginLine
              "built" "  built  " eq_refl eq_refl) as (Ht & _).
  exact Ht.
Defined.

Lemma restartServer_keeps_exit_listener_witness :
  exited (after world0 compiled_once) = None
  /\ server (after world0 compiled_once) = Some (Forked 0)
  /\ listeners_for (Child (Forked 0)) EvExit
       (restartServer world0 (after world0 compiled_once)) =
       [ServerExited (Forked 0)].
Proof.
  split; [reflexivity|]. split; [reflexivity|].
  apply (restartServer_keeps_exit_listener world0 compiled_once (Forked 0)
           eq_refl eq_refl).
Defined.

(** C6, as stated, fails: after the first restart the slot holds the
    first server; the second restart kills it and its exit listener is
    still registered. *)
Lemma restartServer_detaches_counterexample :
  ~ (forall (w : world) (evs : list event) (old : handle),
       exited (after w evs) = None ->
       server (after w evs) = Some old ->
       listeners_for (Child old) EvExit (restartServer w (after w evs)) = []).
Proof.
  intros H.
  specialize (H world0 compiled_once (Forked 0) eq_refl eq_refl).
  discriminate H.
Qed.

Lemma no_plugin_without_PLUGIN_DIR_witness :
  PLUGIN_DIR world0 = None
  /\ forallb plugin_free
       (trace (after world0
                 [StdoutLine Plugin "Watching for file changes" "x";
                  Signal SIGTERM])) = true.
Proof.
  split; [reflexivity|].
  apply (no_plugin_without_PLUGIN_DIR world0
           [StdoutLine Plugin "Watching for file changes" "x";
            Signal SIGTERM] eq_refl).
Defined.

Lemma restartServer_forwards_arguments_witness :
  argv world0 = "node" :: "watch.js" :: ["--port"; "8080"]
  /\ exited (after world0 []) = None
  /\ forall h m a,
       In (Fork h m a) (restart_effects world0 (after world0 [])) ->
       a = ["--port"; "8080"].
Proof.
  split; [reflexivity|]. split; [reflexivity|].
  destruct (restartServer_forwards_arguments world0 "node" "watch.js"
              ["--port"; "8080"] (after world0 []) eq_refl eq_refl)
    as (before & _ & Hall).
  exact Hall.
Defined.

Lemma web_extensions_stdout_unread_witness :
  exited (after world0 []) = None
  /\ step world0 (after world0 [])
       (StderrData VscodeWebExtensions "warning") =
       emit (StderrWrite "warning") (after world0 [])
  /\ exited (step world0 (after world0 [])
               (ChildExit VscodeWebExtensions (Some 1%Z))) = Some 1%Z.
Proof.
  split; [reflexivity|].
  destruct (web_extensions_stdout_unread world0 [] "" "" "warning"
              (Some 1%Z)) as (_ & H).
  destruct (H eq_refl) as (Hd & _ & He).
  split; [exact Hd | exact He].
Defined.

(** Sample scenarios, evaluated. *)

Example two_compilations_two_restarts :
  trace (after world0 compiled_twice) =
    [Spawn Vscode "yarn" ["watch"] "/repo/vendor/modules/code-oss-dev";
     Spawn VscodeWebExtensions "yarn" ["watch-web"]
       "/repo/vendor/modules/code-oss-dev";
     Spawn Tsc "tsc" ["--watch"; "--pretty"; "--preserveWatchOutput"] "/repo";
     ConsoleLog ["[vscode]"; "Finished compilation"];
     Fork (Forked 0) "/repo/out/node/entry.js" ["--port"; "8080"];
     ConsoleLog ["[server] spawned process 4000"];
     ConsoleLog ["[vscode]"; "Finished compilation"];
     Kill (Forked 0);
     Fork (Forked 1) "/repo/out/node/entry.js" ["--port"; "8080"];
     ConsoleLog ["[server] spawned process 4001"]]
  /\ server (after world0 compiled_twice) = Some (Forked 1).
Proof. split; reflexivity. Qed.

Example replaced_server_exit_is_logged :
  trace (step world0 (after world0 compiled_twice)
           (ChildExit (Forked 0) None)) =
    (trace (after world0 compiled_twice)
     ++ [ConsoleLog ["[server] process 4000 exited"]])%list.
Proof. reflexivity. Qed.

Example interrupt_with_plugin_and_server :
  trace (step world1 (after world1 compiled_once) (Signal SIGINT)) =
    (trace (after world1 compiled_once)
     ++ teardown "killing vs code watcher" Vscode
     ++ teardown "killing vs code web extension watcher" VscodeWebExtensions
     ++ teardown "killing tsc" Tsc
     ++ teardown "killing plugin" Plugin
     ++ teardown "killing server" (Forked 0)
     ++ [StdoutWrite "killing watch"; StdoutWrite newline; ProcessExit 0])%list
  /\ exited (step world1 (after world1 compiled_once) (Signal SIGINT)) =
       Some 0%Z.
Proof. split; reflexivity. Qed.

Example tsc_exit_code_2 :
  exited (step world0 (after world0 []) (ChildExit Tsc (Some 2%Z))) =
    Some 2%Z.
Proof. reflexivity. Qed.

Example blank_tsc_line :
  step world0 (after world0 []) (StdoutLine Tsc "" "   ") = after world0 [].
Proof. reflexivity. Qed.

(** [removeAllListeners] is called on the child process objects: the
    listeners of their streams are registered on other emitters and are
    still there when the supervisor exits. *)
Remark cleanup_leaves_stream_listeners :
  listeners_for (Stderr Vscode) EvData
    (step world0 (after world0 []) (Signal SIGINT)) = [ForwardStderr]
  /\ listeners_for (Stdout Tsc) EvData
       (step world0 (after world0 []) (Signal SIGINT)) = [LineReader TscLine].
Proof. split; reflexivity. Qed.

Lemma registrations_while_running_witness :
  exited (after world0 compiled_twice) = None
  /\ listeners_for (Child (Forked 0)) EvExit (after world0 compiled_twice) =
       [ServerExited (Forked 0)].
Proof.
  split; [reflexivity|].
  destruct (registrations_while_running world0 compiled_twice eq_refl)
    as (_ & Hn).
  apply (Hn 0). cbn. lia.
Defined.

Lemma empty_PLUGIN_DIR_is_unset_witness :
  truthy (PLUGIN_DIR world2) = false
  /\ plugin world2 = None
  /\ forallb plugin_free
       (trace (after world2
                 [StdoutLine Plugin "Watching for file changes" "x";
                  ChildExit Plugin (Some 1%Z);
                  Signal SIGINT])) = true.
Proof.
  split; [reflexivity|].
  apply (empty_PLUGIN_DIR_is_unset world2
           [StdoutLine Plugin "Watching for file changes" "x";
            ChildExit Plugin (Some 1%Z);
            Signal SIGINT] eq_refl).
Defined.

Example health_check_with_query_beats :
  common "/healthz?probe=1" = [HeartBeat; SetArgs; SetHeart; Next]
  /\ common "/healthz/" = [SetArgs; SetHeart; Next].
Proof. split; reflexivity. Qed.
